(** * kodi/tools/DllHelper.h: the shared-library helper [CDllHelper]

    A shallow embedding of [CDllHelper] (load a shared library, bind exported
    symbols to caller-owned function pointers, close on destruction) and the
    properties of it that the specification states.

    The class talks to three collaborators that are not part of the header:
    kodi's virtual file system and log, the native dynamic loader of
    <dlfcn.h>, and the realtime clock.  Every call to one of them is a node
    of a finite program tree; a program is run against an arbitrary handler
    that answers the calls, and the run records the calls with their answers
    in a trace.  Statements about "the close call happens exactly once" or
    "the copy occurs" are statements about that trace. *)

From Stdlib Require Import ZArith Ascii String List Bool Lia.
From stdpp Require Import base strings gmap.
Import ListNotations.
Local Open Scope string_scope.
Local Open Scope Z_scope.

(** ** Data *)

(** [void*] and function pointers: an address, [nullptr] being 0. *)
Definition ptr : Type := Z.
Definition nullptr : ptr := 0.

(** [struct timespec] of <time.h>. *)
Record timespec : Type := { tv_sec : Z; tv_nsec : Z }.

(** The two fields of kodi's [STAT_STRUCTURE] that [LoadDll] reads. *)
Record STAT_STRUCTURE : Type :=
  { size : Z; modificationTime : timespec }.

(** The levels of kodi's [AddonLog] that the header logs at. *)
Inductive AddonLog : Type := ADDON_LOG_DEBUG | ADDON_LOG_ERROR.

(** The object: its only member is [void* m_dll = nullptr]. *)
Record CDllHelper : Type := { m_dll : ptr }.

(** [CDllHelper() = default]. *)
Definition CDllHelper_new : CDllHelper := {| m_dll := nullptr |}.

(** What the header takes from the build and from the system headers:
    whether [TARGET_ANDROID] is defined, the values of [TIME_UTC]
    (<time.h>), [CLOCK_REALTIME] (<time.h>) and [RTLD_LAZY] (<dlfcn.h>),
    and the compiler's choice where C++ leaves the order of evaluation
    open: whether the left operand of the [>] in [LoadDll] is evaluated
    before the right one. *)
Class Build : Type :=
  { TARGET_ANDROID : bool;
    TIME_UTC : Z;
    CLOCK_REALTIME : Z;
    RTLD_LAZY : Z;
    GT_LEFT_OPERAND_FIRST : bool }.

(** ** [std::string] operations used by [LoadDll] *)

Module StdString.

(** [s.substr(pos, len)]: at most [len] characters from [pos]. *)
Definition substr (s : string) (pos len : nat) : string :=
  String.substring pos (Nat.min len (String.length s - pos)) s.

(** [s.compare(pos, len, str)]: three-way comparison of
    [s.substr(pos, len)] with [str]; only the sign is specified. *)
Definition compare (s : string) (pos len : nat) (str : string) : Z :=
  match String.compare (substr s pos len) str with
  | Eq => 0
  | Lt => -1
  | Gt => 1
  end.

End StdString.

(** ** Calls to the collaborators

    [call X] is a call whose answer has type [X].  Out-parameters are part
    of the answer: [StatFile] answers [Some st] when it returns true and has
    filled the buffer with [st], [None] when it returns false;
    [clock_gettime] answers its status and what it stored through the
    pointer, if anything.  [Log] carries the format and the strings passed
    for its [%s]. *)
Inductive call : Type -> Type :=
| FileExists (path : string) : call bool
| TranslateSpecialProtocol (source : string) : call string
| GetFileName (path : string) : call string
| StatFile (path : string) : call (option STAT_STRUCTURE)
| CopyFile (src dst : string) : call bool
| Log (level : AddonLog) (format : string) (args : list string) : call unit
| dlopen (path : string) (flag : Z) : call ptr
| dlsym (handle : ptr) (symbol : string) : call ptr
| dlclose (handle : ptr) : call Z
| dlerror : call string
| clock_gettime (clk : Z) : call (Z * option timespec).

(** ** Programs over the calls *)

Inductive prog (A : Type) : Type :=
| Ret (a : A)
| Do {X : Type} (c : call X) (k : X -> prog A).
Arguments Ret {A} a.
Arguments Do {A X} c k.

Fixpoint bind {A B : Type} (m : prog A) (f : A -> prog B) : prog B :=
  match m with
  | Ret a => f a
  | Do c k => Do c (fun x => bind (k x) f)
  end.

Definition perform {X : Type} (c : call X) : prog X := Do c Ret.

(** [prog] with stdpp's monad notation [x ← m; k]. *)
#[export] Instance prog_ret : MRet prog := @Ret.
#[export] Instance prog_bind : MBind prog := fun A B f m => bind m f.

(** ** Running a program

    A handler answers every call and moves the world on; [run] threads the
    world through the program and records each call with its answer. *)

Definition handler (W : Type) : Type := forall X : Type, call X -> W -> X * W.

Inductive event : Type :=
| Ev {X : Type} (c : call X) (x : X).

Record outcome (W A : Type) : Type :=
  { result : A; world : W; trace : list event }.
Arguments result {W A} o.
Arguments world {W A} o.
Arguments trace {W A} o.

Fixpoint run {W A : Type} (h : handler W) (p : prog A) (w : W) : outcome W A :=
  match p with
  | Ret a => {| result := a; world := w; trace := [] |}
  | Do c k =>
      let xw := h _ c w in
      let o := run h (k (fst xw)) (snd xw) in
      {| result := result o; world := world o;
         trace := Ev c (fst xw) :: trace o |}
  end.

(** *** Observers on traces

    Each lists the calls of one kind in a trace, in order, with their
    arguments and answers. *)

(** [dlclose]: the handle passed. *)
Definition closed_handle (e : event) : option ptr :=
  match e with
  | Ev (dlclose hd) _ => Some hd
  | _ => None
  end.

Definition close_calls (t : list event) : list ptr :=
  omap closed_handle t.

(** [dlopen]: path, flag and the handle returned. *)
Definition opened (e : event) : option (string * Z * ptr) :=
  match e with
  | Ev (dlopen p flag) hd => Some (p, flag, hd)
  | _ => None
  end.

Definition open_calls (t : list event) : list (string * Z * ptr) :=
  omap opened t.

(** [dlsym]: handle, symbol name and the address returned. *)
Definition resolved (e : event) : option (ptr * string * ptr) :=
  match e with
  | Ev (dlsym hd name) a => Some (hd, name, a)
  | _ => None
  end.

Definition sym_calls (t : list event) : list (ptr * string * ptr) :=
  omap resolved t.

(** [CopyFile]: source, destination and whether it succeeded. *)
Definition copied (e : event) : option (string * string * bool) :=
  match e with
  | Ev (CopyFile s d) ok => Some (s, d, ok)
  | _ => None
  end.

Definition copy_calls (t : list event) : list (string * string * bool) :=
  omap copied t.

(** [StatFile]: the path and the status it gave, if any. *)
Definition stated (e : event) : option (string * option STAT_STRUCTURE) :=
  match e with
  | Ev (StatFile p) st => Some (p, st)
  | _ => None
  end.

Definition stat_calls (t : list event)
  : list (string * option STAT_STRUCTURE) :=
  omap stated t.

(** [clock_gettime]: the status returned. *)
Definition clock_status (e : event) : option Z :=
  match e with
  | Ev (clock_gettime _) r => Some (fst r)
  | _ => None
  end.

Definition clock_statuses (t : list event) : list Z :=
  omap clock_status t.

(** [Log]: level, format and arguments. *)
Definition logged (e : event) : option (AddonLog * string * list string) :=
  match e with
  | Ev (Log level format args) _ => Some (level, format, args)
  | _ => None
  end.

Definition log_calls (t : list event)
  : list (AddonLog * string * list string) :=
  omap logged t.

(** ** The class *)

Section Class_CDllHelper.

Context {build : Build}.

(** [virtual ~CDllHelper()]:
    [if (m_dll) dlclose(m_dll);] *)
Definition destroy (this : CDllHelper) : prog unit :=
  if negb (m_dll this =? nullptr) then
    _ ← perform (dlclose (m_dll this));
    Ret tt
  else Ret tt.

(** [int timespec_get(timespec* ts, int base)]:
    [return (base == TIME_UTC && clock_gettime(CLOCK_REALTIME, ts) != -1)
              ? base : 0;]
    Returns the value and the contents of [*ts] afterwards. *)
Definition timespec_get (ts : timespec) (base : Z) : prog (Z * timespec) :=
  if base =? TIME_UTC then
    r ← perform (clock_gettime CLOCK_REALTIME);
    let ts' := match snd r with Some now => now | None => ts end in
    Ret (if negb (fst r =? -1) then base else 0, ts')
  else Ret (0, ts).

(** The [#if defined(TARGET_ANDROID)] block of [LoadDll]: [Some p] when
    control falls through to [dlopen] with [path = p], [None] when the
    block leaves the function with [return false].  The two calls of
    [timespec_get] are the operands of [>], which C++ evaluates in
    either order: the build says which comes first.  What they store
    into the two status buffers is not read again. *)
Definition stage (path : string) : prog (option string) :=
  found ← perform (FileExists path);
  if found : bool then
    xbmcaltbinaddons ←
      perform (TranslateSpecialProtocol "special://xbmcaltbinaddons/");
    if negb (StdString.compare path 0 (String.length xbmcaltbinaddons)
               xbmcaltbinaddons =? 0)
    then
      name ← perform (GetFileName path);
      let dstfile := xbmcaltbinaddons +:+ name in
      dst ← perform (StatFile dstfile);
      doCopy ←
        match dst with
        | Some dstFileStat =>
            src ← perform (StatFile path);
            match src with
            | Some srcFileStat =>
                if size dstFileStat =? size srcFileStat then
                  operands ←
                    (if GT_LEFT_OPERAND_FIRST then
                       d ← timespec_get (modificationTime dstFileStat)
                             TIME_UTC;
                       s ← timespec_get (modificationTime srcFileStat)
                             TIME_UTC;
                       Ret (fst d, fst s)
                     else
                       s ← timespec_get (modificationTime srcFileStat)
                             TIME_UTC;
                       d ← timespec_get (modificationTime dstFileStat)
                             TIME_UTC;
                       Ret (fst d, fst s));
                  if fst operands >? snd operands then Ret false
                  else Ret true
                else Ret true
            | None => Ret true
            end
        | None => Ret true
        end;
      if doCopy : bool then
        _ ← perform (Log ADDON_LOG_DEBUG "Caching '%s' to '%s'"
                        [path; dstfile]);
        ok ← perform (CopyFile path dstfile);
        if ok : bool then Ret (Some dstfile)
        else
          _ ← perform (Log ADDON_LOG_ERROR "Failed to cache '%s' to '%s'"
                          [path; dstfile]);
          Ret None
      else Ret (Some dstfile)
    else Ret (Some path)
  else Ret None.

(** [bool LoadDll(std::string path)]: the value returned and the object
    afterwards. *)
Definition LoadDll (path : string) (this : CDllHelper)
  : prog (bool * CDllHelper) :=
  staged ← (if TARGET_ANDROID then stage path else Ret (Some path));
  match staged with
  | None => Ret (false, this)
  | Some path =>
      hd ← perform (dlopen path RTLD_LAZY);
      let this := {| m_dll := hd |} in
      if m_dll this =? nullptr then
        err ← perform dlerror;
        _ ← perform (Log ADDON_LOG_ERROR "Unable to load %s" [err]);
        Ret (false, this)
      else Ret (true, this)
  end.

(** [template <typename T>
     bool RegisterSymbol(T& functionPtr, const char* strFunctionPtr)]:
    [functionPtr] is the caller's slot, passed by reference; the program
    takes its contents before the call and returns the value returned
    together with its contents afterwards. *)
Definition RegisterSymbol (functionPtr : ptr) (strFunctionPtr : string)
    (this : CDllHelper) : prog (bool * ptr) :=
  sym ← perform (dlsym (m_dll this) strFunctionPtr);
  let functionPtr := sym in
  if functionPtr =? nullptr then
    err ← perform dlerror;
    _ ← perform (Log ADDON_LOG_ERROR "Unable to assign function %s" [err]);
    Ret (false, functionPtr)
  else Ret (true, functionPtr).

End Class_CDllHelper.

(** ** A test double for the collaborators

    An executable world to run the class in: a file table, the directory
    [special://xbmcaltbinaddons/] translates to, the shared objects the
    loader can open with their exported symbols, the symbols of the global
    scope, and a script for the clock. *)

Record FakeOS : Type :=
  { files : gmap string STAT_STRUCTURE;
    special_dir : string;
    copy_allowed : bool;
    clock_script : list (Z * option timespec);
    shared_objects : gmap string (ptr * gmap string ptr);
    global_scope : gmap string ptr;
    loaded : gmap Z (gmap string ptr);
    last_error : string }.

(** kodi's [GetFileName]: what follows the last ['/'] or ['\']. *)
Fixpoint file_name (path : string) : string :=
  match path with
  | EmptyString => EmptyString
  | String c rest =>
      let tail := file_name rest in
      if (String.length tail <? String.length rest)%nat then tail
      else if Ascii.eqb c "/"%char || Ascii.eqb c "\"%char then rest
      else String c rest
  end.

Definition with_files (fs : gmap string STAT_STRUCTURE) (w : FakeOS) : FakeOS :=
  {| files := fs; special_dir := special_dir w;
     copy_allowed := copy_allowed w; clock_script := clock_script w;
     shared_objects := shared_objects w; global_scope := global_scope w;
     loaded := loaded w; last_error := last_error w |}.

Definition with_shared_objects (so : gmap string (ptr * gmap string ptr))
    (w : FakeOS) : FakeOS :=
  {| files := files w; special_dir := special_dir w;
     copy_allowed := copy_allowed w; clock_script := clock_script w;
     shared_objects := so; global_scope := global_scope w;
     loaded := loaded w; last_error := last_error w |}.

Definition with_clock_script (cs : list (Z * option timespec)) (w : FakeOS)
  : FakeOS :=
  {| files := files w; special_dir := special_dir w;
     copy_allowed := copy_allowed w; clock_script := cs;
     shared_objects := shared_objects w; global_scope := global_scope w;
     loaded := loaded w; last_error := last_error w |}.

Definition with_loaded (l : gmap Z (gmap string ptr)) (w : FakeOS) : FakeOS :=
  {| files := files w; special_dir := special_dir w;
     copy_allowed := copy_allowed w; clock_script := clock_script w;
     shared_objects := shared_objects w; global_scope := global_scope w;
     loaded := l; last_error := last_error w |}.

Definition with_last_error (e : string) (w : FakeOS) : FakeOS :=
  {| files := files w; special_dir := special_dir w;
     copy_allowed := copy_allowed w; clock_script := clock_script w;
     shared_objects := shared_objects w; global_scope := global_scope w;
     loaded := loaded w; last_error := e |}.

(** What the loader resolves [name] to on handle [hd]: the global scope for
    the null handle (the loaders' [RTLD_DEFAULT] is the null pointer), the
    exports of the object loaded under [hd] otherwise. *)
Definition fake_resolve (w : FakeOS) (hd : ptr) (name : string) : ptr :=
  let found :=
    if hd =? nullptr then global_scope w !! name
    else loaded w !! hd ≫= (fun syms : gmap string ptr => syms !! name) in
  default nullptr found.

(** The handler of the test double.  [CopyFile] fails when copying is not
    allowed or the source is missing, and otherwise installs the source's
    status and shared object under the destination; [dlopen] fails on a
    path that holds no shared object; the clock answers from its script and
    succeeds with time zero when the script is used up. *)
Definition fake : handler FakeOS :=
  fun X c =>
    match c in call X return FakeOS -> X * FakeOS with
    | FileExists p => fun w =>
        (match files w !! p with Some _ => true | None => false end, w)
    | TranslateSpecialProtocol _ => fun w => (special_dir w, w)
    | GetFileName p => fun w => (file_name p, w)
    | StatFile p => fun w => (files w !! p, w)
    | CopyFile s d => fun w =>
        match files w !! s with
        | Some st =>
            if copy_allowed w then
              (true,
               with_files (<[d := st]> (files w))
                 (with_shared_objects
                    (match shared_objects w !! s with
                     | Some so => <[d := so]> (shared_objects w)
                     | None => delete d (shared_objects w)
                     end) w))
            else (false, w)
        | None => (false, w)
        end
    | Log _ _ _ => fun w => (tt, w)
    | dlopen p _ => fun w =>
        match shared_objects w !! p with
        | Some (hd, syms) => (hd, with_loaded (<[hd := syms]> (loaded w)) w)
        | None =>
            (nullptr,
             with_last_error (p +:+ ": cannot open shared object file") w)
        end
    | dlsym hd name => fun w =>
        let a := fake_resolve w hd name in
        (a, if a =? nullptr
            then with_last_error ("undefined symbol: " +:+ name) w
            else w)
    | dlclose hd => fun w => (0, with_loaded (delete hd (loaded w)) w)
    | dlerror => fun w => (last_error w, with_last_error "" w)
    | clock_gettime _ => fun w =>
        match clock_script w with
        | r :: rest => (r, with_clock_script rest w)
        | [] => ((0, Some {| tv_sec := 0; tv_nsec := 0 |}), w)
        end
    end.

(** Builds: Android (bionic's values of the constants) with either order
    of the operands, and Linux. *)
Definition android_build : Build :=
  {| TARGET_ANDROID := true; TIME_UTC := 1; CLOCK_REALTIME := 0;
     RTLD_LAZY := 1; GT_LEFT_OPERAND_FIRST := true |}.

Definition android_build_right_first : Build :=
  {| TARGET_ANDROID := true; TIME_UTC := 1; CLOCK_REALTIME := 0;
     RTLD_LAZY := 1; GT_LEFT_OPERAND_FIRST := false |}.

Definition linux_build : Build :=
  {| TARGET_ANDROID := false; TIME_UTC := 1; CLOCK_REALTIME := 0;
     RTLD_LAZY := 1; GT_LEFT_OPERAND_FIRST := true |}.

(** A device: the addons ship [/addons/mylib.so], which exports [Init] and
    [Cleanup], and [/addons/other.so], which exports [Init]; the cache
    directory is [/data/lib/]; [malloc] is in the global scope. *)
Definition mylib_exports : gmap string ptr :=
  {[ "Init" := 4096; "Cleanup" := 4160 ]}.

Definition other_exports : gmap string ptr :=
  {[ "Init" := 8192 ]}.

Definition device : FakeOS :=
  {| files :=
       {[ "/addons/mylib.so" :=
            {| size := 1000;
               modificationTime := {| tv_sec := 1000; tv_nsec := 0 |} |};
          "/addons/other.so" :=
            {| size := 500;
               modificationTime := {| tv_sec := 1500; tv_nsec := 0 |} |} ]};
     special_dir := "/data/lib/";
     copy_allowed := true;
     clock_script := [];
     shared_objects :=
       {[ "/addons/mylib.so" := (77, mylib_exports);
          "/addons/other.so" := (88, other_exports) ]};
     global_scope := {[ "malloc" := 65536 ]};
     loaded := ∅;
     last_error := "" |}.

(** The same device after an earlier run has cached the library: the copy
    has the size of the source and a later modification time. *)
Definition device_cached : FakeOS :=
  with_files
    (<["/data/lib/mylib.so" :=
         {| size := 1000;
            modificationTime := {| tv_sec := 2000; tv_nsec := 0 |} |}]>
       (files device))
    (with_shared_objects
       (<["/data/lib/mylib.so" := (77, mylib_exports)]> (shared_objects device))
       device).

(** The same device when the cache directory cannot be written. *)
Definition device_read_only : FakeOS :=
  {| files := files device; special_dir := special_dir device;
     copy_allowed := false; clock_script := clock_script device;
     shared_objects := shared_objects device;
     global_scope := global_scope device;
     loaded := loaded device; last_error := last_error device |}.

(** ** Notions the statements use *)

Section Notions.

Context {build : Build} {W : Type} (h : handler W).

(** A path at which there is no library: on Android the file system
    denies that the file exists; elsewhere the only collaborator that
    looks at the path is the loader, which fails to open it. *)
Definition nonexistent (path : string) (w : W) : Prop :=
  if TARGET_ANDROID then fst (h _ (FileExists path) w) = false
  else fst (h _ (dlopen path RTLD_LAZY) w) = nullptr.

(** The handler that answers like [h], except that the modification
    times in the answers of [StatFile] are rewritten by [f]. *)
Definition retime (f : string -> timespec -> timespec) : handler W :=
  fun X c =>
    match c in call X0 return W -> X0 * W with
    | StatFile p => fun w =>
        let r := h _ (StatFile p) w in
        (option_map
           (fun st => {| size := size st;
                         modificationTime := f p (modificationTime st) |})
           (fst r),
         snd r)
    | c0 => h _ c0
    end.

(** A caller that binds the same name [n] times in a row into the same
    slot, collecting what each call returned and left in the slot. *)
Fixpoint bind_repeatedly (n : nat) (functionPtr : ptr) (name : string)
    (this : CDllHelper) : prog (list (bool * ptr)) :=
  match n with
  | O => Ret []
  | S n' =>
      r ← RegisterSymbol functionPtr name this;
      rs ← bind_repeatedly n' (snd r) name this;
      Ret (r :: rs)
  end.

(** The library remains loaded while symbols are bound: what the loader
    resolves a name to on a handle is a function [symbols] of the world
    that none of the calls [RegisterSymbol] makes ([dlsym], [dlerror],
    [Log]) changes. *)
Class StableResolver : Type :=
  { symbols : W -> ptr -> string -> ptr;
    dlsym_symbols : forall w hd name,
      fst (h _ (dlsym hd name) w) = symbols w hd name;
    symbols_dlsym : forall w hd name hd' name',
      symbols (snd (h _ (dlsym hd name) w)) hd' name' = symbols w hd' name';
    symbols_dlerror : forall w hd' name',
      symbols (snd (h _ dlerror w)) hd' name' = symbols w hd' name';
    symbols_Log : forall w level format args hd' name',
      symbols (snd (h _ (Log level format args) w)) hd' name'
      = symbols w hd' name' }.

End Notions.

(** The trace with the modification times of the [StatFile] answers
    blanked. *)
Definition blank_times (e : event) : event :=
  match e with
  | Ev (StatFile p) st =>
      Ev (StatFile p)
        (option_map
           (fun st => {| size := size st;
                         modificationTime := {| tv_sec := 0; tv_nsec := 0 |} |})
           st)
  | e' => e'
  end.

(** ** The test double in the notions above *)

(** The test double keeps its symbol tables while symbols are bound:
    [dlsym], [dlerror] and [Log] touch the error string at most. *)
Definition fake_stable : StableResolver fake.
Proof.
  refine {| symbols := fake_resolve |}.
  - reflexivity.
  - intros w hd name hd' name'. cbn.
    destruct (fake_resolve w hd name =? nullptr); reflexivity.
  - reflexivity.
  - reflexivity.
Defined.

(** The device once [/addons/mylib.so] is loaded on Android. *)
Definition device_loaded : outcome FakeOS (bool * CDllHelper) :=
  run fake (LoadDll (build := android_build) "/addons/mylib.so" CDllHelper_new)
    device.

(** The device whose clock reports a time. *)
Definition device_clock : FakeOS :=
  with_clock_script
    [(0, Some {| tv_sec := 1700000000; tv_nsec := 0 |})] device.

(** ** Callers

    What the header offers its users beyond the methods: the macro that
    binds a member by its own name, and whole lives of an instance. *)

(** The error lines among a list of log calls. *)
Definition is_error_line (l : AddonLog * string * list string) : bool :=
  match fst (fst l) with
  | ADDON_LOG_ERROR => true
  | ADDON_LOG_DEBUG => false
  end.

Definition error_lines (t : list event)
  : list (AddonLog * string * list string) :=
  List.filter is_error_line (log_calls t).

(** The handle the latest [dlopen] call of a trace returned; [before] when
    the trace holds none. *)
Definition latest_handle (before : ptr) (t : list event) : ptr :=
  match last (open_calls t) with
  | Some (_, _, hd) => hd
  | None => before
  end.

(** [#define REGISTER_DLL_SYMBOL(functionPtr)
       CDllHelper::RegisterSymbol(functionPtr, #functionPtr)]
    The argument names a function-pointer member of the class that derives
    from [CDllHelper]; [members] holds those members by identifier, and the
    stringized argument is that identifier. *)
Definition REGISTER_DLL_SYMBOL (functionPtr : string)
    (members : gmap string ptr) (this : CDllHelper)
  : prog (bool * gmap string ptr) :=
  r ← RegisterSymbol (default nullptr (members !! functionPtr)) functionPtr
        this;
  Ret (fst r, <[functionPtr := snd r]> members).

(** One use of an instance by its owner. *)
Inductive operation : Type :=
| CallLoadDll (path : string)
| CallRegisterSymbol (name : string).

Section Callers.

Context {build : Build}.

(** An owner that calls the methods in the given order, binding into one
    slot, whatever they return: the object afterwards. *)
Fixpoint use (ops : list operation) (slot : ptr) (this : CDllHelper)
  : prog CDllHelper :=
  match ops with
  | [] => Ret this
  | CallLoadDll path :: rest =>
      r ← LoadDll path this;
      use rest slot (snd r)
  | CallRegisterSymbol name :: rest =>
      r ← RegisterSymbol slot name this;
      use rest (snd r) this
  end.

(** A whole life: construction, the uses, destruction. *)
Definition lifetime (ops : list operation) : prog unit :=
  this ← use ops nullptr CDllHelper_new;
  destroy this.

End Callers.

(** The cached device with a clock whose second read fails. *)
Definition device_clock_breaks : FakeOS :=
  with_clock_script
    [(0, Some {| tv_sec := 1700000000; tv_nsec := 0 |}); (-1, None)]
    device_cached.

(** ** [std::string::compare] as a prefix test *)

Lemma substring_min (m : nat) (s : string) :
  String.substring 0 (Nat.min m (String.length s)) s = String.substring 0 m s.
Proof.
  revert m; induction s as [| c s IH]; intros [| m]; cbn; try reflexivity.
  f_equal. apply IH.
Qed.

Lemma compare_same (s : string) : String.compare s s = Eq.
Proof.
  pose proof (String.compare_antisym s s) as A.
  destruct (String.compare s s); cbn in A; congruence.
Qed.

(** [path.compare(0, dir.length(), dir)] is 0 exactly when [path] starts
    with [dir]: the test [LoadDll] uses for "already in the cache
    directory". *)
Lemma compare_zero_iff_prefix (path dir : string) :
  StdString.compare path 0 (String.length dir) dir = 0
  <-> String.prefix dir path = true.
Proof.
  unfold StdString.compare, StdString.substr.
  rewrite Nat.sub_0_r, substring_min, String.prefix_correct.
  destruct (String.compare (String.substring 0 (String.length dir) path) dir)
    eqn:E.
  - apply String.compare_eq_iff in E. split; intros _; [exact E | reflexivity].
  - split; [discriminate |]. intros H. rewrite H, compare_same in E.
    discriminate E.
  - split; [discriminate |]. intros H. rewrite H, compare_same in E.
    discriminate E.
Qed.

(** ** Running sequences *)

Lemma run_bind {W A B : Type} (h : handler W) (m : prog A) (f : A -> prog B)
    (w : W) :
  run h (bind m f) w =
  let o := run h m w in
  let o' := run h (f (result o)) (world o) in
  {| result := result o'; world := world o';
     trace := trace o ++ trace o' |}.
Proof.
  revert w; induction m as [a | X c k IH]; intros w; cbn.
  - destruct (run h (f a) w); reflexivity.
  - rewrite IH; reflexivity.
Qed.

(** Case analysis on a run: take the answer of the next call, or split on
    the test the program branches on. *)
Ltac ask h :=
  match goal with
  | |- context [h ?X ?c ?w] =>
      is_var w; destruct (h X c w) as [? ?] eqn:?; cbn [fst snd] in *
  end.

Ltac branch :=
  match goal with
  | |- context [match ?x with _ => _ end] => is_var x; destruct x
  | |- context [if ?b then _ else _] => destruct b eqn:?
  end.

Ltac explore h := repeat (cbn; first [ask h | branch]); cbn.

(** ** The properties *)

Section Properties.

Context {build : Build} {W : Type} (h : handler W).

(** *** Teardown *)

(** The [dlclose] calls of the destructor. *)
Lemma destroy_close_calls (this : CDllHelper) (w : W) :
  close_calls (trace (run h (destroy this) w)) =
  if m_dll this =? nullptr then [] else [m_dll this].
Proof.
  unfold destroy.
  destruct (m_dll this =? nullptr); reflexivity.
Qed.

(** C6.  Destroying an instance whose handle is not null calls [dlclose]
    exactly once, on that handle; destroying an instance whose handle is
    null calls [dlclose] not at all.  In both cases the destructor calls
    nothing else. *)
Theorem destroy_closes_owned_handle_once (this : CDllHelper) (w : W) :
  let o := run h (destroy this) w in
  close_calls (trace o) = (if m_dll this =? nullptr then [] else [m_dll this])
  /\ length (trace o) = length (close_calls (trace o)).
Proof.
  split; [apply destroy_close_calls |].
  unfold destroy.
  destruct (m_dll this =? nullptr); reflexivity.
Qed.

(** *** Loading *)

(** [LoadDll] makes no [dlclose] call. *)
Lemma LoadDll_close_calls (path : string) (this : CDllHelper) (w : W) :
  close_calls (trace (run h (LoadDll path this) w)) = [].
Proof.
  unfold LoadDll, stage, timespec_get.
  destruct TARGET_ANDROID; explore h; reflexivity.
Qed.

(** [LoadDll] calls [dlopen] at most once; it returns true exactly when
    it did and the handle it got is not null, and then keeps that
    handle; a call that got a null handle keeps the null handle; a call
    that did not reach [dlopen] leaves the object as it was. *)
Lemma LoadDll_open_calls (path : string) (this : CDllHelper) (w : W) :
  let o := run h (LoadDll path this) w in
  (open_calls (trace o) = [] /\ result o = (false, this)) \/
  (exists p hd, open_calls (trace o) = [(p, RTLD_LAZY, hd)] /\
     result o = (negb (hd =? nullptr), {| m_dll := hd |})).
Proof.
  unfold LoadDll, stage, timespec_get.
  destruct TARGET_ANDROID; explore h;
    solve [ left; split; reflexivity
          | right; eexists _, _; split; [reflexivity |];
            match goal with
            | H : (_ =? nullptr) = _ |- _ => rewrite H; reflexivity
            end ].
Qed.

(** C10.  [LoadDll] never calls [dlclose].  In particular, when an
    instance is loaded twice and then destroyed, and both loads succeed,
    each load obtained one handle from [dlopen], the instance holds the
    second, and the only [dlclose] call of its whole life is the one the
    destructor makes on the second handle: the first handle is
    overwritten and not closed. *)
Theorem LoadDll_never_closes (p1 p2 : string) (this : CDllHelper) (w : W) :
  let o1 := run h (LoadDll p1 this) w in
  let o2 := run h (LoadDll p2 (snd (result o1))) (world o1) in
  let o3 := run h (destroy (snd (result o2))) (world o2) in
  close_calls (trace o1) = [] /\
  close_calls (trace o2) = [] /\
  (fst (result o1) = true -> fst (result o2) = true ->
   exists q1 q2 hd1 hd2,
     open_calls (trace o1) = [(q1, RTLD_LAZY, hd1)] /\
     open_calls (trace o2) = [(q2, RTLD_LAZY, hd2)] /\
     hd1 <> nullptr /\ hd2 <> nullptr /\
     m_dll (snd (result o1)) = hd1 /\
     m_dll (snd (result o2)) = hd2 /\
     close_calls (trace o1 ++ trace o2 ++ trace o3) = [hd2]).
Proof.
  intros o1 o2 o3.
  split; [apply LoadDll_close_calls |].
  split; [apply LoadDll_close_calls |].
  intros ok1 ok2.
  destruct (LoadDll_open_calls p1 this w) as [[_ E1] | (q1 & hd1 & O1 & E1)];
    fold o1 in E1; [rewrite E1 in ok1; discriminate |].
  destruct (LoadDll_open_calls p2 (snd (result o1)) (world o1))
    as [[_ E2] | (q2 & hd2 & O2 & E2)];
    fold o2 in E2; [rewrite E2 in ok2; discriminate |].
  fold o1 in O1. fold o2 in O2.
  rewrite E1 in ok1. rewrite E2 in ok2. cbn in ok1, ok2.
  apply negb_true_iff, Z.eqb_neq in ok1, ok2.
  exists q1, q2, hd1, hd2.
  repeat split; try assumption; try (rewrite ?E1, ?E2; reflexivity).
  unfold close_calls. rewrite !omap_app.
  fold (close_calls (trace o1)) (close_calls (trace o2))
    (close_calls (trace o3)).
  unfold o1, o2 at 1. rewrite !LoadDll_close_calls.
  unfold o3. rewrite destroy_close_calls.
  rewrite E2. cbn [snd m_dll].
  apply Z.eqb_neq in ok2. rewrite ok2. reflexivity.
Qed.


(** A load that fails on an instance whose handle is null leaves the
    handle null, whatever made it fail. *)
Lemma LoadDll_failure_keeps_unloaded (path : string) (this : CDllHelper)
    (w : W) :
  m_dll this = nullptr ->
  fst (result (run h (LoadDll path this) w)) = false ->
  m_dll (snd (result (run h (LoadDll path this) w))) = nullptr.
Proof.
  intros Hnull.
  destruct (LoadDll_open_calls path this w) as [[_ E] | (q & hd & _ & E)];
    rewrite E; cbn; [intros _; exact Hnull |].
  intros Hf. apply negb_false_iff, Z.eqb_eq in Hf. exact Hf.
Qed.

(** C5.  [LoadDll] of a nonexistent path on an instance that holds no
    handle returns false and leaves the handle null. *)
Theorem LoadDll_nonexistent_path (path : string) (w : W) :
  nonexistent h path w ->
  let o := run h (LoadDll path CDllHelper_new) w in
  fst (result o) = false /\ m_dll (snd (result o)) = nullptr.
Proof.
  intros Hno o.
  assert (Hfail : fst (result o) = false).
  { subst o. unfold nonexistent in Hno. unfold LoadDll, stage.
    destruct TARGET_ANDROID.
    - cbn. rewrite Hno. reflexivity.
    - cbn. rewrite Hno. reflexivity. }
  split; [exact Hfail |].
  apply LoadDll_failure_keeps_unloaded; [reflexivity | exact Hfail].
Qed.

(** C7.  On Android, when the staging copy fails, [LoadDll] returns
    false with the object untouched and without calling [dlopen]; the
    trace ends with the debug line that announces the copy, the failed
    copy, and the error line that reports the failure. *)
Theorem LoadDll_copy_failure (path : string) (this : CDllHelper) (w : W)
    (s d : string) :
  TARGET_ANDROID = true ->
  let o := run h (LoadDll path this) w in
  In (s, d, false) (copy_calls (trace o)) ->
  result o = (false, this) /\
  open_calls (trace o) = [] /\
  s = path /\
  log_calls (trace o) =
    [ (ADDON_LOG_DEBUG, "Caching '%s' to '%s'", [path; d]);
      (ADDON_LOG_ERROR, "Failed to cache '%s' to '%s'", [path; d]) ] /\
  exists pre,
    trace o =
    (pre ++ [ Ev (Log ADDON_LOG_DEBUG "Caching '%s' to '%s'" [path; d]) tt;
              Ev (CopyFile path d) false;
              Ev (Log ADDON_LOG_ERROR "Failed to cache '%s' to '%s'"
                    [path; d]) tt ])%list.
Proof.
  intros Handroid o. subst o.
  unfold LoadDll, stage, timespec_get. rewrite Handroid.
  explore h; intros Hin; cbn in Hin; try contradiction.
  all: destruct Hin as [Hin | []]; inversion Hin; subst.
  all: repeat match goal with u : unit |- _ => destruct u end.
  all: repeat split.
  all: match goal with
       | |- exists pre, ?l = _ => exists (take (length l - 3) l); reflexivity
       end.
Qed.


(** *** Binding *)

(** What one [RegisterSymbol] call does: it resolves the name once, on
    the handle the instance holds, leaves the answer in the slot, and
    returns whether the answer is not null. *)
Lemma RegisterSymbol_run (slot : ptr) (name : string) (this : CDllHelper)
    (w : W) :
  let a := fst (h _ (dlsym (m_dll this) name) w) in
  let o := run h (RegisterSymbol slot name this) w in
  result o = (negb (a =? nullptr), a) /\
  sym_calls (trace o) = [(m_dll this, name, a)].
Proof.
  unfold RegisterSymbol. cbn.
  destruct (fst (h _ (dlsym (m_dll this) name) w) =? nullptr);
    split; reflexivity.
Qed.

(** [LoadDll] succeeds when nothing on its way refuses: off Android when
    the loader opens the path; on Android when the file system finds the
    file, no copy attempted in the run fails and the loader opens what it
    is then asked for.  It has then called [dlopen] once and holds the
    handle it got. *)
Lemma LoadDll_unless_refused (path : string) (this : CDllHelper) (w : W) :
  let o := run h (LoadDll path this) w in
  (if TARGET_ANDROID
   then fst (h _ (FileExists path) w) = true /\
        Forall (fun c => snd c = true) (copy_calls (trace o)) /\
        Forall (fun c => snd c <> nullptr) (open_calls (trace o))
   else fst (h _ (dlopen path RTLD_LAZY) w) <> nullptr) ->
  fst (result o) = true /\
  m_dll (snd (result o)) <> nullptr /\
  exists q,
    open_calls (trace o) = [(q, RTLD_LAZY, m_dll (snd (result o)))] /\
    (TARGET_ANDROID = false -> q = path).
Proof.
  intros o. subst o.
  unfold LoadDll, stage, timespec_get.
  destruct TARGET_ANDROID.
  - explore h; intros (Hfound & Hcopies & Hopens);
      try discriminate Hfound.
    all: repeat match goal with
           | H : Forall _ (_ :: _) |- _ =>
               apply Forall_cons in H as [? ?]
           end; cbn [fst snd] in *; try discriminate.
    all: repeat match goal with
           | H : (_ =? nullptr) = true |- _ => apply Z.eqb_eq in H
           | H : (_ =? nullptr) = false |- _ => apply Z.eqb_neq in H
           end; try contradiction.
    all: repeat split; try assumption.
    all: eexists; split; [reflexivity | discriminate].
  - cbn. intros Hopen. apply Z.eqb_neq in Hopen. rewrite Hopen. cbn.
    apply Z.eqb_neq in Hopen.
    repeat split; try assumption.
    eexists; split; reflexivity.
Qed.

(** C4, as the code has it.  [LoadDll] returns true when nothing on its
    way refuses: off Android when the native loader opens the path; on
    Android when the file system finds the file, the staging copy, if one
    is attempted, succeeds, and the loader opens what it is then asked
    for (on Android a library the loader would open does not load when
    the staging copy fails).  It has then called [dlopen] once and holds
    the handle it got, and a following [RegisterSymbol] of a name that
    [dlsym] resolves on that handle calls [dlsym] once on it, returns
    true, and leaves in the slot the address [dlsym] reported, which is
    not null. *)
Theorem load_then_bind_unless_refused (path : string) (this : CDllHelper)
    (w : W) (name : string) (slot : ptr) :
  let o1 := run h (LoadDll path this) w in
  let o2 := run h (RegisterSymbol slot name (snd (result o1))) (world o1) in
  let addr := fst (h _ (dlsym (m_dll (snd (result o1))) name) (world o1)) in
  (if TARGET_ANDROID
   then fst (h _ (FileExists path) w) = true /\
        Forall (fun c => snd c = true) (copy_calls (trace o1)) /\
        Forall (fun c => snd c <> nullptr) (open_calls (trace o1))
   else fst (h _ (dlopen path RTLD_LAZY) w) <> nullptr) ->
  addr <> nullptr ->
  fst (result o1) = true /\
  m_dll (snd (result o1)) <> nullptr /\
  (exists q,
     open_calls (trace o1) = [(q, RTLD_LAZY, m_dll (snd (result o1)))] /\
     (TARGET_ANDROID = false -> q = path)) /\
  fst (result o2) = true /\
  snd (result o2) = addr /\
  snd (result o2) <> nullptr /\
  sym_calls (trace o2) = [(m_dll (snd (result o1)), name, addr)].
Proof.
  intros o1 o2 addr Hok Haddr.
  destruct (LoadDll_unless_refused path this w Hok) as (Hr & Hhd & Hopen).
  fold o1 in Hr, Hhd, Hopen.
  destruct (RegisterSymbol_run slot name (snd (result o1)) (world o1))
    as [E2 S2].
  fold o2 addr in E2, S2.
  rewrite E2. cbn [fst snd].
  apply Z.eqb_neq in Haddr. rewrite Haddr. apply Z.eqb_neq in Haddr.
  repeat split; assumption.
Qed.

(** C2, as the code has it.  On an instance whose handle is null,
    [RegisterSymbol] hands the null handle to [dlsym] as it is, once, and
    returns what the answer dictates: false when [dlsym] answers null
    for the null handle, true (with the slot assigned) when it answers
    an address. *)
Theorem RegisterSymbol_null_handle (slot : ptr) (name : string)
    (this : CDllHelper) (w : W) :
  m_dll this = nullptr ->
  let a := fst (h _ (dlsym nullptr name) w) in
  let o := run h (RegisterSymbol slot name this) w in
  sym_calls (trace o) = [(nullptr, name, a)] /\
  result o = (negb (a =? nullptr), a) /\
  (a = nullptr -> fst (result o) = false).
Proof.
  intros Hnull a o.
  destruct (RegisterSymbol_run slot name this w) as [E S].
  fold o in E, S. rewrite Hnull in E, S. fold a in E, S.
  repeat split; try assumption.
  intros Ha. rewrite E, Ha. reflexivity.
Qed.

(** C3, as the code has it.  Every [RegisterSymbol] call assigns the
    slot: whatever the slot held, it holds the answer of [dlsym]
    afterwards, the call returns true exactly when that is not null, and
    after a call that returned false the slot is null. *)
Theorem RegisterSymbol_assigns_slot (slot : ptr) (name : string)
    (this : CDllHelper) (w : W) :
  let o := run h (RegisterSymbol slot name this) w in
  snd (result o) = fst (h _ (dlsym (m_dll this) name) w) /\
  fst (result o) = negb (snd (result o) =? nullptr) /\
  (fst (result o) = false -> snd (result o) = nullptr) /\
  (forall slot', run h (RegisterSymbol slot' name this) w = o).
Proof.
  intros o.
  destruct (RegisterSymbol_run slot name this w) as [E _]. fold o in E.
  rewrite E; cbn.
  repeat split.
  intros Hf. apply negb_false_iff, Z.eqb_eq in Hf. exact Hf.
Qed.

(** One [RegisterSymbol] call leaves the loader's symbol tables as they
    were. *)
Lemma RegisterSymbol_symbols `{!StableResolver h} (slot : ptr)
    (name : string) (this : CDllHelper) (w : W) (hd' : ptr)
    (name' : string) :
  symbols h (world (run h (RegisterSymbol slot name this) w)) hd' name'
  = symbols h w hd' name'.
Proof.
  unfold RegisterSymbol. cbn.
  destruct (fst (h _ (dlsym (m_dll this) name) w) =? nullptr); cbn.
  - rewrite (symbols_Log h), (symbols_dlerror h), (symbols_dlsym h).
    reflexivity.
  - rewrite (symbols_dlsym h). reflexivity.
Qed.

(** C8.  While the library remains loaded, binding the same name again
    and again gives the same every time: each of the [n] calls resolves
    the name on the instance's handle, gets the same address, leaves it
    in the slot and returns the same success value. *)
Theorem repeated_binding_idempotent `{!StableResolver h} (n : nat)
    (slot : ptr) (name : string) (this : CDllHelper) (w : W) :
  let a := symbols h w (m_dll this) name in
  let o := run h (bind_repeatedly n slot name this) w in
  result o = replicate n (negb (a =? nullptr), a) /\
  sym_calls (trace o) = replicate n (m_dll this, name, a).
Proof.
  cbn zeta. revert slot w.
  induction n as [| n IH]; intros slot w; [split; reflexivity |].
  cbn [bind_repeatedly]. unfold mbind, prog_bind.
  rewrite run_bind; cbn zeta; cbn [result world trace].
  rewrite run_bind; cbn zeta; cbn [run result world trace].
  destruct (RegisterSymbol_run slot name this w) as [E S].
  rewrite (dlsym_symbols h) in E, S.
  specialize (IH (snd (result (run h (RegisterSymbol slot name this) w)))
                 (world (run h (RegisterSymbol slot name this) w))).
  rewrite RegisterSymbol_symbols in IH.
  destruct IH as [IHr IHt].
  split.
  - rewrite IHr, E. reflexivity.
  - unfold sym_calls in *. rewrite !omap_app, S, IHt.
    cbn. rewrite app_nil_r. reflexivity.
Qed.


(** *** The staging decision *)

(** What [timespec_get] does: it reads the clock exactly when [base] is
    [TIME_UTC]; it returns [base] when it did and the read did not
    return -1, and 0 otherwise; the timespec holds afterwards what the
    clock stored, and what it held before when nothing was stored. *)
Lemma timespec_get_run (ts : timespec) (base : Z) (w : W) :
  let clock := fst (h _ (clock_gettime CLOCK_REALTIME) w) in
  let o := run h (timespec_get ts base) w in
  fst (result o) =
    (if (base =? TIME_UTC) && negb (fst clock =? -1) then TIME_UTC else 0) /\
  snd (result o) =
    (if base =? TIME_UTC then default ts (snd clock) else ts) /\
  clock_statuses (trace o) = (if base =? TIME_UTC then [fst clock] else []).
Proof.
  unfold timespec_get.
  destruct (base =? TIME_UTC) eqn:Hbase; cbn; [| repeat split].
  apply Z.eqb_eq in Hbase. subst base.
  destruct (snd (fst (h _ (clock_gettime CLOCK_REALTIME) w)));
    repeat split.
Qed.

(** Rewriting the modification times that [StatFile] reports changes
    nothing in a run of [LoadDll] but those times in the trace. *)
Lemma LoadDll_retime (f : string -> timespec -> timespec) (path : string)
    (this : CDllHelper) (w : W) :
  let o := run h (LoadDll path this) w in
  let o' := run (retime h f) (LoadDll path this) w in
  result o' = result o /\
  world o' = world o /\
  map blank_times (trace o') = map blank_times (trace o).
Proof.
  unfold LoadDll, stage, timespec_get.
  destruct TARGET_ANDROID; explore h; repeat split.
Qed.

(** C9.  [timespec_get ts base] returns [TIME_UTC] when [base] is
    [TIME_UTC] and the clock read does not return -1, and 0 otherwise;
    on a successful read the timespec holds the clock's time afterwards;
    value, calls and world are the same for every timespec passed in.
    Hence a run of [LoadDll] is the same, up to the times shown in the
    trace, whatever modification times [StatFile] reports: the staging
    check does not depend on them. *)
Theorem timespec_get_ignores_its_timespec (ts : timespec) (base : Z)
    (w : W) :
  let clock := fst (h _ (clock_gettime CLOCK_REALTIME) w) in
  let o := run h (timespec_get ts base) w in
  fst (result o) =
    (if (base =? TIME_UTC) && negb (fst clock =? -1) then TIME_UTC else 0) /\
  (forall now, base = TIME_UTC -> snd clock = Some now ->
               snd (result o) = now) /\
  (forall ts',
     let o' := run h (timespec_get ts' base) w in
     fst (result o') = fst (result o) /\ world o' = world o /\
     trace o' = trace o) /\
  (forall (f : string -> timespec -> timespec) path this w0,
     let l := run h (LoadDll path this) w0 in
     let l' := run (retime h f) (LoadDll path this) w0 in
     result l' = result l /\ world l' = world l /\
     map blank_times (trace l') = map blank_times (trace l)).
Proof.
  intros clock o.
  destruct (timespec_get_run ts base w) as (Hv & Hts & _).
  fold clock o in Hv, Hts.
  split; [exact Hv |].
  split.
  { intros now Hbase Hnow. rewrite Hts, Hnow.
    apply Z.eqb_eq in Hbase. rewrite Hbase. reflexivity. }
  split.
  { intros ts' o'. subst o o'. unfold timespec_get.
    destruct (base =? TIME_UTC); cbn; repeat split. }
  intros f path this w0. apply LoadDll_retime.
Qed.

(** C1, what the code does.  On Android, once staging looks at the
    destination (the file exists and lies outside the cache directory),
    the copy is made whenever no clock read fails: also when the
    destination is there with the size of the source and a modification
    time not earlier than the source's. *)
Theorem staging_copies_whenever_clock_works (path : string)
    (this : CDllHelper) (w : W) :
  TARGET_ANDROID = true ->
  let o := run h (LoadDll path this) w in
  stat_calls (trace o) <> [] ->
  Forall (fun status => status <> -1) (clock_statuses (trace o)) ->
  exists d ok, copy_calls (trace o) = [(path, d, ok)].
Proof.
  intros Handroid o. subst o.
  unfold LoadDll, stage, timespec_get. rewrite Handroid.
  explore h; intros Hstat Hclock;
    try (exfalso; apply Hstat; reflexivity);
    try (eexists _, _; reflexivity).
  all: exfalso.
  all: apply Forall_cons in Hclock as [Hc1 Hclock].
  all: apply Forall_cons in Hclock as [Hc2 _].
  all: apply Z.eqb_neq in Hc1, Hc2.
  all: match goal with
       | H : (_ >? _) = true |- _ =>
           rewrite Hc1, Hc2 in H; cbn in H;
           rewrite Z.gtb_ltb, Z.ltb_irrefl in H;
           discriminate H
       end.
Qed.

(** Where the code agrees with the staging rule: a destination that is
    absent, or present with a size that differs from the source's, is
    copied over, whatever the modification times and the clock. *)
Lemma staging_copies_on_absent_or_resized (path : string)
    (this : CDllHelper) (w : W) (dstfile : string)
    (dst : option STAT_STRUCTURE)
    (rest : list (string * option STAT_STRUCTURE)) :
  TARGET_ANDROID = true ->
  let o := run h (LoadDll path this) w in
  stat_calls (trace o) = (dstfile, dst) :: rest ->
  match dst, rest with
  | None, _ => True
  | Some d, [(_, Some s)] => size d <> size s
  | Some _, _ => False
  end ->
  exists ok, copy_calls (trace o) = [(path, dstfile, ok)].
Proof.
  intros Handroid o. subst o.
  unfold LoadDll, stage, timespec_get. rewrite Handroid.
  explore h; intros Hstat Hcase; try discriminate Hstat.
  all: inversion Hstat; subst; cbn in Hcase; try contradiction.
  all: try (eexists; reflexivity).
  all: match goal with
       | H : (_ =? _) = true |- _ => apply Z.eqb_eq in H; contradiction
       end.
Qed.

End Properties.

(** ** The properties on the test double *)

Example device_loaded_run :
  result device_loaded = (true, {| m_dll := 77 |}) /\
  copy_calls (trace device_loaded)
  = [("/addons/mylib.so", "/data/lib/mylib.so", true)] /\
  open_calls (trace device_loaded) = [("/data/lib/mylib.so", 1, 77)].
Proof. vm_compute. repeat split. Qed.

(** The end-to-end scenario of the specification: load, bind [Init], fail
    to bind [NoSuchFn], destroy; one close call in all. *)
Example end_to_end :
  let this := snd (result device_loaded) in
  let b1 := run fake (RegisterSymbol nullptr "Init" this)
              (world device_loaded) in
  let b2 := run fake (RegisterSymbol nullptr "NoSuchFn" this) (world b1) in
  let d := run fake (destroy this) (world b2) in
  result b1 = (true, 4096) /\
  result b2 = (false, nullptr) /\
  close_calls (trace device_loaded ++ trace b1 ++ trace b2 ++ trace d) = [77].
Proof. vm_compute. repeat split. Qed.

Lemma LoadDll_never_closes_witness :
  let o1 := device_loaded in
  let o2 := run fake (LoadDll (build := android_build) "/addons/other.so"
                        (snd (result o1))) (world o1) in
  let o3 := run fake (destroy (snd (result o2))) (world o2) in
  fst (result o1) = true /\ fst (result o2) = true /\
  exists q1 q2 hd1 hd2,
    open_calls (trace o1) = [(q1, 1, hd1)] /\
    open_calls (trace o2) = [(q2, 1, hd2)] /\
    hd1 <> nullptr /\ hd2 <> nullptr /\
    m_dll (snd (result o1)) = hd1 /\
    m_dll (snd (result o2)) = hd2 /\
    close_calls (trace o1 ++ trace o2 ++ trace o3) = [hd2].
Proof.
  intros o1 o2 o3.
  assert (H1 : fst (result o1) = true) by (vm_compute; reflexivity).
  assert (H2 : fst (result o2) = true) by (vm_compute; reflexivity).
  split; [exact H1 |]. split; [exact H2 |].
  exact (proj2 (proj2 (LoadDll_never_closes (build := android_build) fake
                         "/addons/mylib.so" "/addons/other.so"
                         CDllHelper_new device)) H1 H2).
Defined.

(** On that device the first handle, 77, is the one left open. *)
Example second_load_leaks_first_handle :
  let o1 := device_loaded in
  let o2 := run fake (LoadDll (build := android_build) "/addons/other.so"
                        (snd (result o1))) (world o1) in
  let o3 := run fake (destroy (snd (result o2))) (world o2) in
  open_calls (trace o1 ++ trace o2)
  = [("/data/lib/mylib.so", 1, 77); ("/data/lib/other.so", 1, 88)] /\
  close_calls (trace o1 ++ trace o2 ++ trace o3) = [88].
Proof. vm_compute. split; reflexivity. Qed.

Lemma LoadDll_nonexistent_path_witness :
  nonexistent (build := android_build) fake "/addons/none.so" device /\
  let o := run fake (LoadDll (build := android_build) "/addons/none.so"
                       CDllHelper_new) device in
  fst (result o) = false /\ m_dll (snd (result o)) = nullptr.
Proof.
  assert (H : nonexistent (build := android_build) fake "/addons/none.so"
                device) by (vm_compute; reflexivity).
  split; [exact H |].
  exact (LoadDll_nonexistent_path (build := android_build) fake
           "/addons/none.so" device H).
Defined.

(** The same off Android, where the loader is the one to refuse. *)
Example LoadDll_nonexistent_path_linux :
  nonexistent (build := linux_build) fake "/addons/none.so" device /\
  result (run fake (LoadDll (build := linux_build) "/addons/none.so"
                      CDllHelper_new) device)
  = (false, {| m_dll := nullptr |}).
Proof. vm_compute. split; reflexivity. Qed.

Lemma LoadDll_copy_failure_witness :
  let o := run fake (LoadDll (build := android_build) "/addons/mylib.so"
                       CDllHelper_new) device_read_only in
  TARGET_ANDROID (Build := android_build) = true /\
  In ("/addons/mylib.so", "/data/lib/mylib.so", false) (copy_calls (trace o)) /\
  result o = (false, CDllHelper_new) /\
  open_calls (trace o) = [] /\
  "/addons/mylib.so" = "/addons/mylib.so" /\
  log_calls (trace o) =
    [ (ADDON_LOG_DEBUG, "Caching '%s' to '%s'",
       ["/addons/mylib.so"; "/data/lib/mylib.so"]);
      (ADDON_LOG_ERROR, "Failed to cache '%s' to '%s'",
       ["/addons/mylib.so"; "/data/lib/mylib.so"]) ] /\
  exists pre,
    trace o =
    (pre ++ [ Ev (Log ADDON_LOG_DEBUG "Caching '%s' to '%s'"
                    ["/addons/mylib.so"; "/data/lib/mylib.so"]) tt;
              Ev (CopyFile "/addons/mylib.so" "/data/lib/mylib.so") false;
              Ev (Log ADDON_LOG_ERROR "Failed to cache '%s' to '%s'"
                    ["/addons/mylib.so"; "/data/lib/mylib.so"]) tt ])%list.
Proof.
  intros o.
  assert (Hin : In ("/addons/mylib.so", "/data/lib/mylib.so", false)
                  (copy_calls (trace o))) by (vm_compute; left; reflexivity).
  split; [reflexivity |]. split; [exact Hin |].
  exact (LoadDll_copy_failure (build := android_build) fake
           "/addons/mylib.so" CDllHelper_new device_read_only
           "/addons/mylib.so" "/data/lib/mylib.so" eq_refl Hin).
Defined.

(** C4, refuted as stated: on an Android device whose cache directory
    cannot be written, the file is there, the loader opens it and resolves
    [Init] on its handle, and yet [LoadDll] returns false. *)
Lemma valid_library_not_loaded_when_copy_fails :
  ~ (forall (build : Build) (W : Type) (h : handler W) (w : W)
            (path name : string) (slot : ptr) (this : CDllHelper),
       let lib := h _ (dlopen path RTLD_LAZY) w in
       let o1 := run h (LoadDll path this) w in
       let o2 := run h (RegisterSymbol slot name (snd (result o1)))
                   (world o1) in
       fst (h _ (FileExists path) w) = true ->
       fst lib <> nullptr ->
       fst (h _ (dlsym (fst lib) name) (snd lib)) <> nullptr ->
       fst (result o1) = true /\
       fst (result o2) = true /\
       snd (result o2) <> nullptr).
Proof.
  intros claim.
  specialize (claim android_build FakeOS fake device_read_only
                "/addons/mylib.so" "Init" nullptr CDllHelper_new).
  cbv zeta in claim.
  destruct claim as (Hload & _).
  - vm_compute. reflexivity.
  - vm_compute. discriminate.
  - vm_compute. discriminate.
  - vm_compute in Hload. discriminate Hload.
Qed.

Example library_on_read_only_device :
  let w := device_read_only in
  let lib := fake _ (dlopen "/addons/mylib.so" 1) w in
  fst (fake _ (FileExists "/addons/mylib.so") w) = true /\
  fst lib = 77 /\
  fst (fake _ (dlsym 77 "Init") (snd lib)) = 4096 /\
  fst (result (run fake (LoadDll (build := android_build)
                           "/addons/mylib.so" CDllHelper_new) w)) = false.
Proof. vm_compute. repeat split. Qed.

Lemma load_then_bind_unless_refused_witness :
  let o1 := device_loaded in
  let o2 := run fake (RegisterSymbol nullptr "Init" (snd (result o1)))
              (world o1) in
  let addr := fst (fake _ (dlsym (m_dll (snd (result o1))) "Init")
                     (world o1)) in
  (fst (fake _ (FileExists "/addons/mylib.so") device) = true /\
   Forall (fun c => snd c = true) (copy_calls (trace o1)) /\
   Forall (fun c => snd c <> nullptr) (open_calls (trace o1))) /\
  addr <> nullptr /\
  fst (result o1) = true /\
  m_dll (snd (result o1)) <> nullptr /\
  (exists q,
     open_calls (trace o1) = [(q, 1, m_dll (snd (result o1)))] /\
     (TARGET_ANDROID (Build := android_build) = false ->
      q = "/addons/mylib.so")) /\
  fst (result o2) = true /\
  snd (result o2) = addr /\
  snd (result o2) <> nullptr /\
  sym_calls (trace o2) = [(m_dll (snd (result o1)), "Init", addr)].
Proof.
  intros o1 o2 addr.
  assert (Hok : fst (fake _ (FileExists "/addons/mylib.so") device) = true /\
                Forall (fun c => snd c = true) (copy_calls (trace o1)) /\
                Forall (fun c => snd c <> nullptr) (open_calls (trace o1))).
  { split; [vm_compute; reflexivity |].
    split; vm_compute; repeat constructor; discriminate. }
  assert (Haddr : addr <> nullptr) by (vm_compute; discriminate).
  split; [exact Hok |]. split; [exact Haddr |].
  exact (load_then_bind_unless_refused (build := android_build) fake
           "/addons/mylib.so" CDllHelper_new device "Init" nullptr
           Hok Haddr).
Defined.

(** The same off Android, where the loader's answer alone decides. *)
Example load_then_bind_linux :
  let o1 := run fake (LoadDll (build := linux_build) "/addons/mylib.so"
                        CDllHelper_new) device in
  let o2 := run fake (RegisterSymbol nullptr "Cleanup" (snd (result o1)))
              (world o1) in
  fst (fake _ (dlopen "/addons/mylib.so" 1) device) = 77 /\
  result o1 = (true, {| m_dll := 77 |}) /\
  result o2 = (true, 4160).
Proof. vm_compute. repeat split. Qed.

(** C2, refuted as stated: with a loader whose null handle stands for the
    global scope, binding [malloc] on a fresh instance succeeds. *)
Lemma binding_on_null_handle_can_succeed :
  ~ (forall (W : Type) (h : handler W) (w : W) (name : string) (slot : ptr)
            (this : CDllHelper),
       m_dll this = nullptr ->
       fst (result (run h (RegisterSymbol slot name this) w)) = false).
Proof.
  intros claim.
  specialize (claim FakeOS fake device "malloc" nullptr CDllHelper_new eq_refl).
  vm_compute in claim. discriminate claim.
Qed.

Example bind_malloc_before_load :
  m_dll CDllHelper_new = nullptr /\
  result (run fake (RegisterSymbol nullptr "malloc" CDllHelper_new) device)
  = (true, 65536).
Proof. vm_compute. split; reflexivity. Qed.

Lemma RegisterSymbol_null_handle_witness :
  let a := fst (fake _ (dlsym nullptr "Init") device) in
  let o := run fake (RegisterSymbol 4096 "Init" CDllHelper_new) device in
  m_dll CDllHelper_new = nullptr /\
  a = nullptr /\
  sym_calls (trace o) = [(nullptr, "Init", a)] /\
  result o = (negb (a =? nullptr), a) /\
  fst (result o) = false.
Proof.
  intros a o.
  assert (Ha : a = nullptr) by (vm_compute; reflexivity).
  destruct (RegisterSymbol_null_handle fake 4096 "Init" CDllHelper_new device
              eq_refl) as (Hs & Hr & Hf).
  split; [reflexivity |]. split; [exact Ha |].
  split; [exact Hs |]. split; [exact Hr |].
  exact (Hf Ha).
Defined.

(** C3, refuted as stated: a slot that holds the address of [Init] and is
    passed to a binding that fails holds null afterwards. *)
Lemma failed_binding_overwrites_slot :
  ~ (forall (W : Type) (h : handler W) (w : W) (name : string) (slot : ptr)
            (this : CDllHelper),
       let o := run h (RegisterSymbol slot name this) w in
       fst (result o) = false -> snd (result o) = slot).
Proof.
  intros claim.
  specialize (claim FakeOS fake (world device_loaded) "NoSuchFn" 4096
                (snd (result device_loaded))).
  vm_compute in claim. specialize (claim eq_refl). discriminate claim.
Qed.

Lemma RegisterSymbol_assigns_slot_witness :
  let o := run fake (RegisterSymbol 4096 "NoSuchFn"
                       (snd (result device_loaded))) (world device_loaded) in
  fst (result o) = false /\
  snd (result o) = nullptr /\
  snd (result o) <> 4096.
Proof.
  intros o.
  assert (Hf : fst (result o) = false) by (vm_compute; reflexivity).
  destruct (RegisterSymbol_assigns_slot fake 4096 "NoSuchFn"
              (snd (result device_loaded)) (world device_loaded))
    as (_ & _ & Hnull & _).
  fold o in Hnull.
  split; [exact Hf |].
  split; [exact (Hnull Hf) |].
  rewrite (Hnull Hf). unfold nullptr. lia.
Defined.

Lemma repeated_binding_idempotent_witness :
  let this := snd (result device_loaded) in
  let o := run fake (bind_repeatedly 3 nullptr "Cleanup" this)
             (world device_loaded) in
  result o = replicate 3 (true, 4160) /\
  sym_calls (trace o) = replicate 3 (77, "Cleanup", 4160).
Proof.
  exact (repeated_binding_idempotent fake (StableResolver0 := fake_stable) 3
           nullptr "Cleanup" (snd (result device_loaded))
           (world device_loaded)).
Defined.

Lemma timespec_get_ignores_its_timespec_witness :
  let now := {| tv_sec := 1700000000; tv_nsec := 0 |} in
  let mtime := {| tv_sec := 1000; tv_nsec := 0 |} in
  let o := run fake (timespec_get (build := android_build) mtime 1)
             device_clock in
  1 = TIME_UTC (Build := android_build) /\
  snd (fst (fake _ (clock_gettime 0) device_clock)) = Some now /\
  result o = (1, now).
Proof.
  intros now mtime o.
  destruct (timespec_get_ignores_its_timespec (build := android_build) fake
              mtime 1 device_clock) as (Hv & Hts & _).
  split; [reflexivity |]. split; [reflexivity |].
  fold o in Hv, Hts.
  rewrite (surjective_pairing (result o)), Hv, (Hts now eq_refl eq_refl).
  reflexivity.
Defined.

Lemma staging_copies_whenever_clock_works_witness :
  let o := run fake (LoadDll (build := android_build) "/addons/mylib.so"
                       CDllHelper_new) device_cached in
  TARGET_ANDROID (Build := android_build) = true /\
  stat_calls (trace o) <> [] /\
  Forall (fun status => status <> -1) (clock_statuses (trace o)) /\
  exists d ok, copy_calls (trace o) = [("/addons/mylib.so", d, ok)].
Proof.
  intros o.
  assert (Hstat : stat_calls (trace o) <> []) by (vm_compute; discriminate).
  assert (Hclock : Forall (fun status => status <> -1)
                     (clock_statuses (trace o)))
    by (vm_compute; repeat constructor; discriminate).
  split; [reflexivity |]. split; [exact Hstat |]. split; [exact Hclock |].
  exact (staging_copies_whenever_clock_works (build := android_build) fake
           "/addons/mylib.so" CDllHelper_new device_cached eq_refl Hstat
           Hclock).
Defined.

(** C1 at the failing input: the cached copy has the size of the source
    and a later modification time, the clock works, and the library is
    copied again. *)
Example cached_library_is_copied_again :
  let o := run fake (LoadDll (build := android_build) "/addons/mylib.so"
                       CDllHelper_new) device_cached in
  stat_calls (trace o) =
    [ ("/data/lib/mylib.so",
       Some {| size := 1000;
               modificationTime := {| tv_sec := 2000; tv_nsec := 0 |} |});
      ("/addons/mylib.so",
       Some {| size := 1000;
               modificationTime := {| tv_sec := 1000; tv_nsec := 0 |} |}) ] /\
  clock_statuses (trace o) = [0; 0] /\
  copy_calls (trace o) = [("/addons/mylib.so", "/data/lib/mylib.so", true)] /\
  fst (result o) = true.
Proof. vm_compute. repeat split. Qed.

(** A library that already lies in the cache directory is opened where it
    is: no status is taken and nothing is copied. *)
Example cached_path_is_opened_in_place :
  let o := run fake (LoadDll (build := android_build) "/data/lib/mylib.so"
                       CDllHelper_new) device_cached in
  stat_calls (trace o) = [] /\
  copy_calls (trace o) = [] /\
  open_calls (trace o) = [("/data/lib/mylib.so", 1, 77)] /\
  fst (result o) = true.
Proof. vm_compute. repeat split. Qed.

(** ** Further properties of the class *)

Section More_properties.

Context {build : Build} {W : Type} (h : handler W).

(** *** [LoadDll] *)

(** X1.  Every failure of [LoadDll] is reported by exactly one error
    line, except one.  When [dlopen] returned null, the run ends with that
    call, the [dlerror] call and the line "Unable to load", which carries
    the string [dlerror] returned.  When the staging copy failed, the run
    ends with the failed copy and the line "Failed to cache", which
    carries the path and the destination of that copy.  The exception: on
    Android a file the file system denies makes it return false after
    that one query, without a log line.  A successful load logs no error
    line. *)
Theorem LoadDll_error_lines (path : string) (this : CDllHelper) (w : W) :
  let o := run h (LoadDll path this) w in
  (fst (result o) = true -> error_lines (trace o) = []) /\
  (fst (result o) = false ->
   (exists pre q err,
      trace o =
      (pre ++ [ Ev (dlopen q RTLD_LAZY) nullptr;
                Ev dlerror err;
                Ev (Log ADDON_LOG_ERROR "Unable to load %s" [err]) tt ])%list
      /\ error_lines (trace o)
         = [(ADDON_LOG_ERROR, "Unable to load %s", [err])])
   \/ (exists pre dstfile,
         trace o =
         (pre ++ [ Ev (CopyFile path dstfile) false;
                   Ev (Log ADDON_LOG_ERROR "Failed to cache '%s' to '%s'"
                         [path; dstfile]) tt ])%list
         /\ error_lines (trace o)
            = [(ADDON_LOG_ERROR, "Failed to cache '%s' to '%s'",
                [path; dstfile])])
   \/ (TARGET_ANDROID = true /\ trace o = [Ev (FileExists path) false])).
Proof.
  unfold LoadDll, stage, timespec_get.
  destruct TARGET_ANDROID; explore h; split; intros Hr;
    try discriminate Hr; try reflexivity.
  all: repeat match goal with u : unit |- _ => destruct u end.
  all: repeat match goal with
         | H : (_ =? nullptr) = true |- _ => apply Z.eqb_eq in H; subst
         end.
  all: first
         [ left;
           match goal with
           | |- exists pre q err, ?l = _ /\ _ =>
               exists (take (length l - 3) l); eexists _, _;
               split; reflexivity
           end
         | right; left;
           match goal with
           | |- exists pre dstfile, ?l = _ /\ _ =>
               exists (take (length l - 2) l); eexists;
               split; reflexivity
           end
         | right; right; split; reflexivity ].
Qed.

(** X2.  Off Android, [LoadDll] hands the path it was given to [dlopen]
    with [RTLD_LAZY] and, when the handle is not null, calls nothing
    else; when it is null, it reads [dlerror] and logs its answer in the
    line "Unable to load".  These are all its calls: it calls neither the
    file system nor the clock. *)
Theorem LoadDll_off_android (path : string) (this : CDllHelper) (w : W) :
  TARGET_ANDROID = false ->
  let o := run h (LoadDll path this) w in
  let lib := h _ (dlopen path RTLD_LAZY) w in
  let err := h _ dlerror (snd lib) in
  trace o =
    Ev (dlopen path RTLD_LAZY) (fst lib)
    :: (if fst lib =? nullptr
        then [ Ev dlerror (fst err);
               Ev (Log ADDON_LOG_ERROR "Unable to load %s" [fst err]) tt ]
        else []) /\
  result o = (negb (fst lib =? nullptr), {| m_dll := fst lib |}).
Proof.
  intros Hoff o lib err. subst o. unfold LoadDll. rewrite Hoff.
  cbn. fold lib.
  destruct (fst lib =? nullptr); cbn; [| split; reflexivity].
  fold err.
  destruct (fst (h _ (Log ADDON_LOG_ERROR "Unable to load %s" [fst err])
                   (snd err))).
  split; reflexivity.
Qed.

(** X3.  A load that gets a null handle from [dlopen] stores it over the
    handle the instance held: the instance is unloaded afterwards, and
    neither the load nor the destructor closes the handle it held before.
    A load that fails before it reaches [dlopen] leaves the object as it
    was. *)
Theorem failed_open_drops_handle (path : string) (this : CDllHelper)
    (w : W) :
  let o := run h (LoadDll path this) w in
  let d := run h (destroy (snd (result o))) (world o) in
  (forall q hd, In (q, RTLD_LAZY, hd) (open_calls (trace o)) ->
                hd = nullptr ->
     fst (result o) = false /\
     m_dll (snd (result o)) = nullptr /\
     close_calls (trace o ++ trace d) = []) /\
  (open_calls (trace o) = [] -> result o = (false, this)).
Proof.
  intros o d.
  destruct (LoadDll_open_calls h path this w) as [[O E] | (q' & hd' & O & E)];
    fold o in O, E.
  - split; [| intros _; exact E].
    intros q hd Hin _. rewrite O in Hin. destruct Hin.
  - split; [| intros HO; rewrite HO in O; discriminate O].
    intros q hd Hin Hnull. rewrite O in Hin.
    destruct Hin as [Hin | []]. inversion Hin; subst q' hd'. subst hd.
    unfold close_calls. rewrite omap_app.
    fold (close_calls (trace o)) (close_calls (trace d)).
    unfold o at 3. rewrite LoadDll_close_calls.
    unfold d. rewrite destroy_close_calls.
    rewrite E. repeat split.
Qed.

(** X4.  On an instance that holds no handle, the value [LoadDll] returns
    tells whether it holds one afterwards. *)
Theorem LoadDll_result_tells_loaded (path : string) (this : CDllHelper)
    (w : W) :
  m_dll this = nullptr ->
  let o := run h (LoadDll path this) w in
  fst (result o) = negb (m_dll (snd (result o)) =? nullptr).
Proof.
  intros Hnull o.
  destruct (LoadDll_open_calls h path this w) as [[_ E] | (q & hd & _ & E)];
    fold o in E; rewrite E; cbn; [rewrite Hnull |]; reflexivity.
Qed.

(** X5.  On Android, a library that exists and whose path starts with the
    cache directory is opened where it is: no status is read, nothing is
    copied, the clock is not read. *)
Theorem LoadDll_inside_cache_directory (path : string) (this : CDllHelper)
    (w : W) :
  TARGET_ANDROID = true ->
  let found := h _ (FileExists path) w in
  let dir :=
    h _ (TranslateSpecialProtocol "special://xbmcaltbinaddons/") (snd found) in
  fst found = true ->
  String.prefix (fst dir) path = true ->
  let o := run h (LoadDll path this) w in
  open_calls (trace o)
  = [(path, RTLD_LAZY, fst (h _ (dlopen path RTLD_LAZY) (snd dir)))] /\
  stat_calls (trace o) = [] /\
  copy_calls (trace o) = [] /\
  clock_statuses (trace o) = [].
Proof.
  intros Handroid found dir Hfound Hprefix o. subst o.
  apply compare_zero_iff_prefix in Hprefix.
  unfold LoadDll, stage. rewrite Handroid. cbn.
  fold found. rewrite Hfound. cbn. fold dir.
  rewrite Hprefix. cbn.
  destruct (fst (h _ (dlopen path RTLD_LAZY) (snd dir)) =? nullptr);
    repeat split.
Qed.

(** X6.  On Android, once staging looks at a destination, that file is
    the one every later step works on: it is the cache directory followed
    by the file name, a copy goes from the path to it, and [dlopen] opens
    it and not the path given. *)
Theorem LoadDll_opens_staged_copy (path : string) (this : CDllHelper)
    (w : W) (dstfile : string) (dst : option STAT_STRUCTURE)
    (rest : list (string * option STAT_STRUCTURE)) :
  TARGET_ANDROID = true ->
  let o := run h (LoadDll path this) w in
  stat_calls (trace o) = (dstfile, dst) :: rest ->
  (exists dir name,
     In (Ev (TranslateSpecialProtocol "special://xbmcaltbinaddons/") dir)
        (trace o) /\
     In (Ev (GetFileName path) name) (trace o) /\
     dstfile = dir +:+ name) /\
  (forall s d ok, In (s, d, ok) (copy_calls (trace o)) ->
                  s = path /\ d = dstfile) /\
  (forall q flag hd, In (q, flag, hd) (open_calls (trace o)) -> q = dstfile).
Proof.
  intros Handroid o. subst o.
  unfold LoadDll, stage, timespec_get. rewrite Handroid.
  explore h; intros Hstat; try discriminate Hstat.
  all: inversion Hstat; subst; clear Hstat.
  all: split; [eexists _, _; cbn; intuition eauto |].
  all: split; cbn; intros ? ? ? Hin; intuition congruence.
Qed.


(** X7.  The whole staging decision, in either order of the operands of
    [>].  On Android, once staging looks at the destination, the copy is
    left out in one case only: both statuses were read, the sizes are
    equal, the clock read made for the destination's operand succeeded
    and the one made for the source's operand failed.  In every other
    case the library is copied.  [d] and [s] below are the statuses of
    those two clock reads; the trace shows them in the order the build
    evaluates the operands. *)
Theorem copy_skipped_iff (path : string) (this : CDllHelper) (w : W) :
  TARGET_ANDROID = true ->
  0 < TIME_UTC ->
  let o := run h (LoadDll path this) w in
  stat_calls (trace o) <> [] ->
  (copy_calls (trace o) = [] <->
   exists dstfile dst src d s,
     stat_calls (trace o) = [(dstfile, Some dst); (path, Some src)] /\
     size dst = size src /\
     clock_statuses (trace o)
     = (if GT_LEFT_OPERAND_FIRST then [d; s] else [s; d]) /\
     d <> -1 /\ s = -1) /\
  (copy_calls (trace o) <> [] ->
   exists dstfile ok, copy_calls (trace o) = [(path, dstfile, ok)]).
Proof.
  intros Handroid Hpos o. subst o.
  unfold LoadDll, stage, timespec_get. rewrite Handroid.
  explore h; intros Hstat; try (exfalso; apply Hstat; reflexivity).
  all: split;
    [| intros Hc; try (exfalso; apply Hc; reflexivity);
       eexists _, _; reflexivity ].
  all: split;
    [ intros Hcopy; try discriminate Hcopy
    | intros (dst' & st1 & st2 & c1 & c2 & Hs & Hsz & Hcl & Ha & Hb);
      try reflexivity; try discriminate Hs; try discriminate Hcl ].
  all: repeat match goal with
         | H : (_ =? _) = true |- _ => apply Z.eqb_eq in H
         | H : (_ =? _) = false |- _ => apply Z.eqb_neq in H
         end.
  all: try (inversion Hs; subst; contradiction).
  all: match goal with
       | Hgt : (_ >? _) = true |- ex _ =>
           (* the copy was left out *)
           match type of Hgt with
           | ((if negb (?a =? -1) then _ else _) >?
              (if negb (?b =? -1) then _ else _)) = true =>
               eexists _, _, _, a, b;
               split; [reflexivity |]; split; [assumption |];
               split; [reflexivity |];
               destruct (a =? -1) eqn:?, (b =? -1) eqn:?;
               cbn in Hgt; try discriminate Hgt;
               apply Z.gtb_lt in Hgt; lia
           end
       | Hgt : (_ >? _) = false |- _ =>
           (* the copy was made although the sizes are equal *)
           exfalso; injection Hcl as H1 H2;
           rewrite H1, H2, Hb in Hgt;
           apply Z.eqb_neq in Ha; rewrite Ha in Hgt;
           cbn in Hgt;
           rewrite Z.gtb_ltb in Hgt; apply Z.ltb_ge in Hgt; lia
       end.
Qed.


(** *** [RegisterSymbol] and the macro *)

(** X8.  [RegisterSymbol] touches nothing but the resolver and the log: it
    opens and closes no library and calls neither the file system nor the
    clock.  A call that succeeds is the one [dlsym] call; a call that
    fails reads the loader's error string after it and logs it in one
    error line. *)
Theorem RegisterSymbol_footprint (slot : ptr) (name : string)
    (this : CDllHelper) (w : W) :
  let o := run h (RegisterSymbol slot name this) w in
  let sym := h _ (dlsym (m_dll this) name) w in
  let err := fst (h _ dlerror (snd sym)) in
  open_calls (trace o) = [] /\
  close_calls (trace o) = [] /\
  copy_calls (trace o) = [] /\
  stat_calls (trace o) = [] /\
  clock_statuses (trace o) = [] /\
  log_calls (trace o) =
    (if fst (result o) then []
     else [(ADDON_LOG_ERROR, "Unable to assign function %s", [err])]) /\
  length (trace o) = (if fst (result o) then 1 else 3)%nat.
Proof.
  unfold RegisterSymbol. cbn.
  destruct (fst (h _ (dlsym (m_dll this) name) w) =? nullptr);
    repeat split.
Qed.

(** What one use of the macro does. *)
Lemma REGISTER_DLL_SYMBOL_run (functionPtr : string)
    (members : gmap string ptr) (this : CDllHelper) (w : W) :
  let a := fst (h _ (dlsym (m_dll this) functionPtr) w) in
  let o := run h (REGISTER_DLL_SYMBOL functionPtr members this) w in
  result o = (negb (a =? nullptr), <[functionPtr := a]> members) /\
  sym_calls (trace o) = [(m_dll this, functionPtr, a)] /\
  world o
  = world (run h (RegisterSymbol (default nullptr (members !! functionPtr))
                    functionPtr this) w).
Proof.
  unfold REGISTER_DLL_SYMBOL, mbind, prog_bind.
  rewrite run_bind; cbn zeta; cbn [run result world trace].
  destruct (RegisterSymbol_run h (default nullptr (members !! functionPtr))
              functionPtr this w) as [E S].
  rewrite E. cbn [fst snd]. rewrite app_nil_r.
  repeat split. exact S.
Qed.

(** X9.  [REGISTER_DLL_SYMBOL(f)] resolves the symbol that has the name of
    the member [f] and stores the answer in that member; it returns true
    exactly when the member is not null afterwards; every other member
    keeps its value. *)
Theorem REGISTER_DLL_SYMBOL_binds_named_member (functionPtr : string)
    (members : gmap string ptr) (this : CDllHelper) (w : W) :
  let o := run h (REGISTER_DLL_SYMBOL functionPtr members this) w in
  let a := fst (h _ (dlsym (m_dll this) functionPtr) w) in
  sym_calls (trace o) = [(m_dll this, functionPtr, a)] /\
  snd (result o) !! functionPtr = Some a /\
  fst (result o) = negb (a =? nullptr) /\
  (forall other, other <> functionPtr ->
                 snd (result o) !! other = members !! other).
Proof.
  intros o a.
  destruct (REGISTER_DLL_SYMBOL_run functionPtr members this w)
    as (E & S & _).
  fold o a in E, S. rewrite E. cbn [fst snd].
  split; [exact S |].
  split; [apply lookup_insert_eq |].
  split; [reflexivity |].
  intros other Hother. apply lookup_insert_ne. congruence.
Qed.

(** X10.  While the library remains loaded, binding two members by the
    macro gives the same members and the same two return values in either
    order. *)
Theorem REGISTER_DLL_SYMBOL_order `{!StableResolver h} (f g : string)
    (members : gmap string ptr) (this : CDllHelper) (w : W) :
  f <> g ->
  let fg1 := run h (REGISTER_DLL_SYMBOL f members this) w in
  let fg2 := run h (REGISTER_DLL_SYMBOL g (snd (result fg1)) this)
               (world fg1) in
  let gf1 := run h (REGISTER_DLL_SYMBOL g members this) w in
  let gf2 := run h (REGISTER_DLL_SYMBOL f (snd (result gf1)) this)
               (world gf1) in
  snd (result fg2) = snd (result gf2) /\
  fst (result fg1) = fst (result gf2) /\
  fst (result fg2) = fst (result gf1).
Proof.
  intros Hfg fg1 fg2 gf1 gf2.
  destruct (REGISTER_DLL_SYMBOL_run f members this w) as (Ef1 & _ & Wf1).
  destruct (REGISTER_DLL_SYMBOL_run g members this w) as (Eg1 & _ & Wg1).
  fold fg1 in Ef1, Wf1. fold gf1 in Eg1, Wg1.
  destruct (REGISTER_DLL_SYMBOL_run g (snd (result fg1)) this (world fg1))
    as (Eg2 & _ & _).
  destruct (REGISTER_DLL_SYMBOL_run f (snd (result gf1)) this (world gf1))
    as (Ef2 & _ & _).
  fold fg2 in Eg2. fold gf2 in Ef2.
  rewrite (dlsym_symbols h) in Ef1, Eg1, Ef2, Eg2.
  rewrite Wf1, RegisterSymbol_symbols in Eg2.
  rewrite Wg1, RegisterSymbol_symbols in Ef2.
  rewrite Ef1 in Eg2. rewrite Eg1 in Ef2. cbn [snd] in Eg2, Ef2.
  rewrite Ef1, Eg1, Ef2, Eg2. cbn [fst snd].
  repeat split.
  apply insert_insert_ne. congruence.
Qed.

(** *** [timespec_get] *)

(** X11.  [timespec_get] never returns a time: its value is 0 or
    [TIME_UTC].  With a base other than [TIME_UTC] it returns 0 without
    reading the clock and leaves the timespec as it was. *)
Theorem timespec_get_value (ts : timespec) (base : Z) (w : W) :
  let o := run h (timespec_get ts base) w in
  (fst (result o) = 0 \/ fst (result o) = TIME_UTC) /\
  (base <> TIME_UTC -> result o = (0, ts) /\ trace o = []).
Proof.
  intros o.
  destruct (timespec_get_run h ts base w) as (Hv & _ & _). fold o in Hv.
  split.
  - rewrite Hv.
    destruct ((base =? TIME_UTC)
              && negb (fst (fst (h _ (clock_gettime CLOCK_REALTIME) w)) =? -1));
      [right | left]; reflexivity.
  - intros Hbase. subst o. unfold timespec_get.
    apply Z.eqb_neq in Hbase. rewrite Hbase. split; reflexivity.
Qed.


(** *** Whole lives *)

Lemma latest_handle_app (before : ptr) (t1 t2 : list event) :
  latest_handle before (t1 ++ t2)
  = latest_handle (latest_handle before t1) t2.
Proof.
  unfold latest_handle, open_calls. rewrite omap_app, last_app.
  destruct (last (omap opened t2)) as [[[q flag] hd] |]; reflexivity.
Qed.

(** [RegisterSymbol] opens and closes nothing. *)
Lemma RegisterSymbol_open_close_calls (slot : ptr) (name : string)
    (this : CDllHelper) (w : W) :
  open_calls (trace (run h (RegisterSymbol slot name this) w)) = [] /\
  close_calls (trace (run h (RegisterSymbol slot name this) w)) = [].
Proof.
  unfold RegisterSymbol. cbn.
  destruct (fst (h _ (dlsym (m_dll this) name) w) =? nullptr);
    split; reflexivity.
Qed.

(** However an owner uses an instance, the instance holds the handle that
    the latest [dlopen] call returned (the handle it started with when
    there was none), and no use closes anything. *)
Lemma use_keeps_latest_handle (ops : list operation) (slot : ptr)
    (this : CDllHelper) (w : W) :
  let o := run h (use ops slot this) w in
  m_dll (result o) = latest_handle (m_dll this) (trace o) /\
  close_calls (trace o) = [].
Proof.
  cbn zeta. revert slot this w.
  induction ops as [| [path | name] rest IH]; intros slot this w.
  - split; reflexivity.
  - cbn [use]. unfold mbind, prog_bind.
    rewrite run_bind; cbn zeta; cbn [result world trace].
    specialize (IH slot (snd (result (run h (LoadDll path this) w)))
                  (world (run h (LoadDll path this) w))).
    destruct IH as [IHh IHc].
    rewrite latest_handle_app, IHh.
    unfold close_calls in *. rewrite omap_app, IHc.
    fold (close_calls (trace (run h (LoadDll path this) w))).
    rewrite LoadDll_close_calls.
    split; [| reflexivity].
    f_equal.
    destruct (LoadDll_open_calls h path this w)
      as [[O E] | (q & hd & O & E)];
      unfold latest_handle; rewrite O, E; reflexivity.
  - cbn [use]. unfold mbind, prog_bind.
    rewrite run_bind; cbn zeta; cbn [result world trace].
    specialize (IH (snd (result (run h (RegisterSymbol slot name this) w)))
                  this
                  (world (run h (RegisterSymbol slot name this) w))).
    destruct IH as [IHh IHc].
    destruct (RegisterSymbol_open_close_calls slot name this w) as [O C].
    rewrite latest_handle_app, IHh.
    unfold close_calls in *. rewrite omap_app, IHc, C.
    split; [| reflexivity].
    f_equal. unfold latest_handle. rewrite O. reflexivity.
Qed.

(** X12.  Over a whole life of an instance, whatever its owner loads and
    binds in between: the only [dlclose] call is the destructor's, on the
    handle that the latest [dlopen] call returned, and there is none when
    that handle is null or nothing was opened.  Handles that earlier
    [dlopen] calls returned are not closed. *)
Theorem lifetime_closes_latest_handle (ops : list operation) (w : W) :
  let o := run h (lifetime ops) w in
  let hd := latest_handle nullptr (trace o) in
  close_calls (trace o) = (if hd =? nullptr then [] else [hd]).
Proof.
  cbn zeta. unfold lifetime, mbind, prog_bind.
  rewrite run_bind; cbn zeta; cbn [result world trace].
  destruct (use_keeps_latest_handle ops nullptr CDllHelper_new w) as [Hh Hc].
  cbn [m_dll CDllHelper_new] in Hh.
  rewrite latest_handle_app, <- Hh.
  unfold close_calls in *. rewrite omap_app, Hc.
  fold (close_calls
          (trace (run h (destroy (result (run h (use ops nullptr
                                                  CDllHelper_new) w)))
                    (world (run h (use ops nullptr CDllHelper_new) w))))).
  rewrite destroy_close_calls. cbn [app].
  unfold destroy.
  destruct (m_dll (result (run h (use ops nullptr CDllHelper_new) w))
            =? nullptr) eqn:E; cbn; rewrite E; reflexivity.
Qed.

End More_properties.

(** ** The further properties on the test double *)

Lemma LoadDll_error_lines_witness :
  let ok := run fake (LoadDll (build := linux_build) "/addons/mylib.so"
                        CDllHelper_new) device in
  let ko := run fake (LoadDll (build := linux_build) "/addons/none.so"
                        CDllHelper_new) device in
  fst (result ok) = true /\
  error_lines (trace ok) = [] /\
  fst (result ko) = false /\
  ((exists pre q err,
      trace ko =
      (pre ++ [ Ev (dlopen q 1) nullptr;
                Ev dlerror err;
                Ev (Log ADDON_LOG_ERROR "Unable to load %s" [err]) tt ])%list
      /\ error_lines (trace ko)
         = [(ADDON_LOG_ERROR, "Unable to load %s", [err])])
   \/ (exists pre dstfile,
         trace ko =
         (pre ++ [ Ev (CopyFile "/addons/none.so" dstfile) false;
                   Ev (Log ADDON_LOG_ERROR "Failed to cache '%s' to '%s'"
                         ["/addons/none.so"; dstfile]) tt ])%list
         /\ error_lines (trace ko)
            = [(ADDON_LOG_ERROR, "Failed to cache '%s' to '%s'",
                ["/addons/none.so"; dstfile])])
   \/ (TARGET_ANDROID (Build := linux_build) = true /\
       trace ko = [Ev (FileExists "/addons/none.so") false])).
Proof.
  intros ok ko.
  assert (Hok : fst (result ok) = true) by (vm_compute; reflexivity).
  assert (Hko : fst (result ko) = false) by (vm_compute; reflexivity).
  split; [exact Hok |].
  split; [exact (proj1 (LoadDll_error_lines (build := linux_build) fake
                          "/addons/mylib.so" CDllHelper_new device) Hok) |].
  split; [exact Hko |].
  exact (proj2 (LoadDll_error_lines (build := linux_build) fake
                  "/addons/none.so" CDllHelper_new device) Hko).
Defined.

(** The line carries what [dlerror] returned. *)
Example unloadable_library_is_logged :
  let o := run fake (LoadDll (build := linux_build) "/addons/none.so"
                       CDllHelper_new) device in
  trace o =
  [ Ev (dlopen "/addons/none.so" 1) nullptr;
    Ev dlerror "/addons/none.so: cannot open shared object file";
    Ev (Log ADDON_LOG_ERROR "Unable to load %s"
          ["/addons/none.so: cannot open shared object file"]) tt ].
Proof. vm_compute. reflexivity. Qed.

(** The silent failure: a missing file on Android. *)
Example missing_file_is_not_logged :
  let o := run fake (LoadDll (build := android_build) "/addons/none.so"
                       CDllHelper_new) device in
  result o = (false, CDllHelper_new) /\
  trace o = [Ev (FileExists "/addons/none.so") false].
Proof. vm_compute. split; reflexivity. Qed.

Lemma LoadDll_off_android_witness :
  let o := run fake (LoadDll (build := linux_build) "/addons/mylib.so"
                       CDllHelper_new) device in
  let lib := fake _ (dlopen "/addons/mylib.so" 1) device in
  let err := fake _ dlerror (snd lib) in
  TARGET_ANDROID (Build := linux_build) = false /\
  trace o =
    Ev (dlopen "/addons/mylib.so" 1) (fst lib)
    :: (if fst lib =? nullptr
        then [ Ev dlerror (fst err);
               Ev (Log ADDON_LOG_ERROR "Unable to load %s" [fst err]) tt ]
        else []) /\
  result o = (negb (fst lib =? nullptr), {| m_dll := fst lib |}).
Proof.
  split; [reflexivity |].
  exact (LoadDll_off_android (build := linux_build) fake "/addons/mylib.so"
           CDllHelper_new device eq_refl).
Defined.

Lemma failed_open_drops_handle_witness :
  let this := snd (result device_loaded) in
  let o := run fake (LoadDll (build := linux_build) "/addons/none.so" this)
             (world device_loaded) in
  let d := run fake (destroy (snd (result o))) (world o) in
  m_dll this = 77 /\
  In ("/addons/none.so", 1, nullptr) (open_calls (trace o)) /\
  fst (result o) = false /\
  m_dll (snd (result o)) = nullptr /\
  close_calls (trace o ++ trace d) = [].
Proof.
  intros this o d.
  assert (Hin : In ("/addons/none.so", 1, nullptr) (open_calls (trace o)))
    by (vm_compute; left; reflexivity).
  split; [reflexivity |]. split; [exact Hin |].
  exact (proj1 (failed_open_drops_handle (build := linux_build) fake
                  "/addons/none.so" this (world device_loaded))
           "/addons/none.so" nullptr Hin eq_refl).
Defined.

Lemma LoadDll_result_tells_loaded_witness :
  let o := run fake (LoadDll (build := android_build) "/addons/mylib.so"
                       CDllHelper_new) device in
  m_dll CDllHelper_new = nullptr /\
  fst (result o) = negb (m_dll (snd (result o)) =? nullptr).
Proof.
  split; [reflexivity |].
  exact (LoadDll_result_tells_loaded (build := android_build) fake
           "/addons/mylib.so" CDllHelper_new device eq_refl).
Defined.

Lemma LoadDll_inside_cache_directory_witness :
  let o := run fake (LoadDll (build := android_build) "/data/lib/mylib.so"
                       CDllHelper_new) device_cached in
  fst (fake _ (FileExists "/data/lib/mylib.so") device_cached) = true /\
  String.prefix "/data/lib/" "/data/lib/mylib.so" = true /\
  open_calls (trace o) = [("/data/lib/mylib.so", 1, 77)] /\
  stat_calls (trace o) = [] /\
  copy_calls (trace o) = [] /\
  clock_statuses (trace o) = [].
Proof.
  split; [vm_compute; reflexivity |]. split; [vm_compute; reflexivity |].
  exact (LoadDll_inside_cache_directory (build := android_build) fake
           "/data/lib/mylib.so" CDllHelper_new device_cached eq_refl
           eq_refl eq_refl).
Defined.

Lemma LoadDll_opens_staged_copy_witness :
  let o := run fake (LoadDll (build := android_build) "/addons/mylib.so"
                       CDllHelper_new) device in
  stat_calls (trace o) = [("/data/lib/mylib.so", None)] /\
  (exists dir name,
     In (Ev (TranslateSpecialProtocol "special://xbmcaltbinaddons/") dir)
        (trace o) /\
     In (Ev (GetFileName "/addons/mylib.so") name) (trace o) /\
     "/data/lib/mylib.so" = dir +:+ name) /\
  (forall s d ok, In (s, d, ok) (copy_calls (trace o)) ->
                  s = "/addons/mylib.so" /\ d = "/data/lib/mylib.so") /\
  (forall q flag hd, In (q, flag, hd) (open_calls (trace o)) ->
                     q = "/data/lib/mylib.so").
Proof.
  intros o.
  assert (Hstat : stat_calls (trace o) = [("/data/lib/mylib.so", None)])
    by (vm_compute; reflexivity).
  split; [exact Hstat |].
  exact (LoadDll_opens_staged_copy (build := android_build) fake
           "/addons/mylib.so" CDllHelper_new device "/data/lib/mylib.so"
           None [] eq_refl Hstat).
Defined.

Lemma copy_skipped_iff_witness :
  let o := run fake (LoadDll (build := android_build) "/addons/mylib.so"
                       CDllHelper_new) device_clock_breaks in
  TARGET_ANDROID (Build := android_build) = true /\
  0 < TIME_UTC (Build := android_build) /\
  stat_calls (trace o) <> [] /\
  copy_calls (trace o) = [] /\
  exists dstfile dst src d s,
    stat_calls (trace o)
    = [(dstfile, Some dst); ("/addons/mylib.so", Some src)] /\
    size dst = size src /\
    clock_statuses (trace o) = [d; s] /\
    d <> -1 /\ s = -1.
Proof.
  intros o.
  assert (Hpos : 0 < TIME_UTC (Build := android_build)) by (cbn; lia).
  assert (Hstat : stat_calls (trace o) <> []) by (vm_compute; discriminate).
  assert (Hcopy : copy_calls (trace o) = []) by (vm_compute; reflexivity).
  split; [reflexivity |].
  split; [exact Hpos |]. split; [exact Hstat |]. split; [exact Hcopy |].
  exact (proj1 (proj1 (copy_skipped_iff (build := android_build) fake
                         "/addons/mylib.so" CDllHelper_new
                         device_clock_breaks eq_refl Hpos Hstat)) Hcopy).
Defined.

(** The same clock, whose second read fails, under either order of the
    operands: the cache is used when the destination's operand comes
    first, and the library is copied again when the source's does. *)
Example operand_order_decides :
  let left := run fake (LoadDll (build := android_build)
                          "/addons/mylib.so" CDllHelper_new)
                device_clock_breaks in
  let right := run fake (LoadDll (build := android_build_right_first)
                           "/addons/mylib.so" CDllHelper_new)
                 device_clock_breaks in
  clock_statuses (trace left) = [0; -1] /\
  copy_calls (trace left) = [] /\
  clock_statuses (trace right) = [0; -1] /\
  copy_calls (trace right)
  = [("/addons/mylib.so", "/data/lib/mylib.so", true)].
Proof. vm_compute. repeat split. Qed.

Lemma REGISTER_DLL_SYMBOL_binds_named_member_witness :
  let members : gmap string ptr := {[ "Init" := 0; "Cleanup" := 4160 ]} in
  let o := run fake (REGISTER_DLL_SYMBOL "Init" members
                       (snd (result device_loaded))) (world device_loaded) in
  "Cleanup" <> "Init" /\
  sym_calls (trace o) = [(77, "Init", 4096)] /\
  snd (result o) !! "Init" = Some 4096 /\
  fst (result o) = true /\
  snd (result o) !! "Cleanup" = Some 4160.
Proof.
  intros members o.
  assert (Hne : "Cleanup" <> "Init") by discriminate.
  destruct (REGISTER_DLL_SYMBOL_binds_named_member fake "Init" members
              (snd (result device_loaded)) (world device_loaded))
    as (Hs & Hm & Hr & Hframe).
  split; [exact Hne |]. split; [exact Hs |]. split; [exact Hm |].
  split; [exact Hr |].
  exact (Hframe "Cleanup" Hne).
Defined.

Lemma REGISTER_DLL_SYMBOL_order_witness :
  let this := snd (result device_loaded) in
  let members : gmap string ptr := ∅ in
  let fg1 := run fake (REGISTER_DLL_SYMBOL "Init" members this)
               (world device_loaded) in
  let fg2 := run fake (REGISTER_DLL_SYMBOL "GetLength" (snd (result fg1))
                         this) (world fg1) in
  let gf1 := run fake (REGISTER_DLL_SYMBOL "GetLength" members this)
               (world device_loaded) in
  let gf2 := run fake (REGISTER_DLL_SYMBOL "Init" (snd (result gf1)) this)
               (world gf1) in
  "Init" <> "GetLength" /\
  snd (result fg2) = snd (result gf2) /\
  fst (result fg1) = fst (result gf2) /\
  fst (result fg2) = fst (result gf1).
Proof.
  assert (Hne : "Init" <> "GetLength") by discriminate.
  split; [exact Hne |].
  exact (REGISTER_DLL_SYMBOL_order fake (StableResolver0 := fake_stable)
           "Init" "GetLength" ∅ (snd (result device_loaded))
           (world device_loaded) Hne).
Defined.

Lemma timespec_get_value_witness :
  let ts := {| tv_sec := 1000; tv_nsec := 0 |} in
  let o := run fake (timespec_get (build := android_build) ts 0)
             device_clock in
  0 <> TIME_UTC (Build := android_build) /\
  result o = (0, ts) /\ trace o = [].
Proof.
  intros ts o.
  assert (Hbase : 0 <> TIME_UTC (Build := android_build)) by (cbn; lia).
  split; [exact Hbase |].
  exact (proj2 (timespec_get_value (build := android_build) fake ts 0
                  device_clock) Hbase).
Defined.

(** A life with two loads: the first handle, 77, stays open. *)
Example life_with_two_loads :
  let o := run fake
             (lifetime (build := android_build)
                [ CallLoadDll "/addons/mylib.so"; CallRegisterSymbol "Init";
                  CallLoadDll "/addons/other.so"; CallRegisterSymbol "Init" ])
             device in
  open_calls (trace o)
  = [("/data/lib/mylib.so", 1, 77); ("/data/lib/other.so", 1, 88)] /\
  sym_calls (trace o) = [(77, "Init", 4096); (88, "Init", 8192)] /\
  close_calls (trace o) = [88].
Proof. vm_compute. repeat split. Qed.
